(** * Network Time Clock

    A shallow embedding of [network-time-clock.ino]: the text layout of the
    two 16-cell LCD lines, the NTP re-synchronisation schedule of [loop], and
    the New Zealand time-zone conversion the sketch obtains from the
    Timezone library.

    C [int] values are integers [Z] (the remainder [%] is [Z.rem], the
    division [/] on [int] is [Z.quot]); [unsigned long] and [size_t] values
    are integers reduced modulo [2^32]; C strings are lists of characters
    without their terminator, [char] arrays are lists of all their cells. *)

From Stdlib Require Import ZArith Bool String Ascii List Lia DecimalString.
Import ListNotations.
Local Open Scope Z_scope.

(* ================================================================= *)
(** ** C strings, [printf] conversions and character arrays *)

Definition cstring := list ascii.

(** A string literal. *)
Definition lit (s : string) : cstring := list_ascii_of_string s.

Definition NUL : ascii := Ascii.zero.
Definition SP : ascii := " "%char.

Definition strlen (s : cstring) : Z := Z.of_nat (length s).

(** [%d] *)
Definition fmt_d (n : Z) : cstring :=
  lit (NilZero.string_of_int (Z.to_int n)).

(** [%02d]: at least two characters, zero-filled on the left. *)
Definition fmt_02d (n : Z) : cstring :=
  let s := fmt_d n in
  if (length s <? 2)%nat then "0"%char :: s else s.

(** [snprintf(buf, size, ...)] keeps at most [size - 1] characters. *)
Definition snprintf (size : nat) (out : cstring) : cstring :=
  firstn (size - 1) out.

(** Failure stands for an access outside an array, which C leaves
    undefined. *)
Definition bind {A B : Type} (o : option A) (k : A -> option B) : option B :=
  match o with
  | Some a => k a
  | None => None
  end.

Notation "x <- e ;; k" := (bind e (fun x => k))
  (at level 61, e at next level, right associativity).

(** [tbl[i]] *)
Definition index (tbl : list cstring) (i : Z) : option cstring :=
  if i <? 0 then None else nth_error tbl (Z.to_nat i).

(** [memcpy(dst + off, src, n)] on the array [dst]: the [n] cells from
    [off] on are replaced by the first [n] characters of [src]. *)
Definition memcpy (dst : list ascii) (off : Z) (src : cstring) (n : Z)
  : option (list ascii) :=
  if (0 <=? off) && (0 <=? n) && (off + n <=? Z.of_nat (length dst))
     && (n <=? strlen src)
  then Some (firstn (Z.to_nat off) dst
             ++ firstn (Z.to_nat n) src
             ++ skipn (Z.to_nat (off + n)) dst)
  else None.

(** The C string held by an array: the cells before the first terminator. *)
Fixpoint c_str (buf : list ascii) : option cstring :=
  match buf with
  | [] => None
  | c :: rest =>
      if Ascii.eqb c NUL then Some []
      else s <- c_str rest ;; Some (c :: s)
  end.

(** [char line[17] = "                "]: sixteen blanks and the terminator. *)
Definition blankLine : list ascii := repeat SP 16 ++ [NUL].

(* ================================================================= *)
(** ** Date formatting *)

Definition monthShortNames : list cstring :=
  map lit ["Jan"; "Feb"; "Mar"; "Apr"; "May"; "Jun";
           "Jul"; "Aug"; "Sep"; "Oct"; "Nov"; "Dec"]%string.

Definition weekdayShortNames : list cstring :=
  map lit ["Sun"; "Mon"; "Tue"; "Wed"; "Thu"; "Fri"; "Sat"]%string.

Definition getDaySuffix (d : Z) : cstring :=
  if (11 <=? d) && (d <=? 13) then lit "th"
  else match Z.rem d 10 with
       | 1 => lit "st"
       | 2 => lit "nd"
       | 3 => lit "rd"
       | _ => lit "th"
       end.

(** The suffix rule in the words of the specification, with the
    mathematical [mod]. *)
Definition suffix_rule (d : Z) : string :=
  if (11 <=? d) && (d <=? 13) then "th"
  else if d mod 10 =? 1 then "st"
  else if d mod 10 =? 2 then "nd"
  else if d mod 10 =? 3 then "rd"
  else "th".

(* ================================================================= *)
(** ** The two display lines of [displayDateTime] *)

(** [dateStr]: ["%s %d%s %s"] into a [char[17]]. *)
Definition dateStr (w m d : Z) : option cstring :=
  wd <- index weekdayShortNames w ;;
  mo <- index monthShortNames m ;;
  Some (snprintf 17 (wd ++ [SP] ++ fmt_d d ++ getDaySuffix d ++ [SP] ++ mo)).

(** [pad = (16 - strlen(dateStr)) / 2], computed in [size_t]. *)
Definition pad (token : cstring) : Z :=
  ((16 - strlen token) mod 2 ^ 32) / 2.

Definition dateLine (w m d : Z) : option (list ascii) :=
  token <- dateStr w m d ;;
  memcpy blankLine (pad token) token (strlen token).

Definition hour12 (h : Z) : Z :=
  let h12 := Z.rem h 12 in
  if h12 =? 0 then 12 else h12.

(** [timeNumStr]: ["%d:%02d:%02d"] into a [char[12]]. *)
Definition timeNumStr (h min s : Z) : cstring :=
  snprintf 12 (fmt_d (hour12 h) ++ lit ":" ++ fmt_02d min
               ++ lit ":" ++ fmt_02d s).

Definition statusStr (h : Z) : cstring :=
  if 12 <=? h then lit "PM" else lit "AM".

Definition timeStart (token : cstring) : Z :=
  Z.quot (16 - strlen token - 3) 2.

Definition statusPos (token : cstring) : Z :=
  timeStart token + strlen token + 1.

(** The two [memcpy] calls that fill [timeLine]. *)
Definition placeTime (token status : cstring) : option (list ascii) :=
  line <- memcpy blankLine (timeStart token) token (strlen token) ;;
  memcpy line (statusPos token) status (strlen status).

Definition timeLine (h min s : Z) : option (list ascii) :=
  placeTime (timeNumStr h min s) (statusStr h).

(** The calendar fields [displayDateTime] extracts from the local time:
    [w] and [m] already are [weekday(local) - 1] and [month(local) - 1]. *)
Record fields := mkFields {
  f_w : Z; f_m : Z; f_d : Z; f_h : Z; f_min : Z; f_s : Z
}.

(** What [lcd.print] shows on row 0 and on row 1. *)
Definition displayFields (f : fields) : option (cstring * cstring) :=
  row0 <- dateLine (f_w f) (f_m f) (f_d f) ;;
  row1 <- timeLine (f_h f) (f_min f) (f_s f) ;;
  shown0 <- c_str row0 ;;
  shown1 <- c_str row1 ;;
  Some (shown0, shown1).

Definition valid_fields (f : fields) : Prop :=
  0 <= f_w f <= 6 /\ 0 <= f_m f <= 11 /\ 1 <= f_d f <= 31 /\
  0 <= f_h f <= 23 /\ 0 <= f_min f <= 59 /\ 0 <= f_s f <= 59.

(* ================================================================= *)
(** ** Calendar arithmetic (TimeLib) *)

(** Modelled from the spec: TimeLib's constants are missing; the seconds of
    a minute, an hour and a day. *)
Definition SECS_PER_MIN : Z := 60.
Definition SECS_PER_HOUR : Z := 3600.
Definition SECS_PER_DAY : Z := 86400.

(** Modelled from the spec: the TimeLib library ([year], [weekday],
    [makeTime], ...) is included by the sketch but is not among the sources;
    the specification speaks of the calendar year of an instant and of the
    n-th weekday of a month, which is the Gregorian calendar counted from
    1970-01-01T00:00:00Z. *)
Definition isLeap (y : Z) : bool :=
  (y mod 4 =? 0) && (negb (y mod 100 =? 0) || (y mod 400 =? 0)).

(** Modelled from the spec: TimeLib is missing; length of a calendar year. *)
Definition daysInYear (y : Z) : Z := if isLeap y then 366 else 365.

(** Modelled from the spec: TimeLib is missing; length of month [m]
    (1 to 12) of year [y]. *)
Definition daysInMonth (y m : Z) : Z :=
  match m with
  | 2 => if isLeap y then 29 else 28
  | 4 | 6 | 9 | 11 => 30
  | _ => 31
  end.

(** Modelled from the spec: TimeLib is missing; walks forward from year [y]
    while a whole year fits into the remaining [days]. *)
Fixpoint yearLoop (fuel : nat) (y days : Z) : Z * Z :=
  match fuel with
  | O => (y, days)
  | S k =>
      if daysInYear y <=? days
      then yearLoop k (y + 1) (days - daysInYear y)
      else (y, days)
  end.

(** Modelled from the spec: TimeLib is missing; walks forward from month [m]
    while a whole month fits into the remaining [days]. *)
Fixpoint monthLoop (fuel : nat) (y m days : Z) : Z * Z :=
  match fuel with
  | O => (m, days)
  | S k =>
      if daysInMonth y m <=? days
      then monthLoop k y (m + 1) (days - daysInMonth y m)
      else (m, days)
  end.

(** Modelled from the spec: TimeLib's [tmElements_t] is missing; the civil
    time of the glossary, [Wday] being 1 (Sunday) to 7 and [Month] 1 to 12,
    which is the indexing the sketch's name tables rely on. *)
Record tmElements := mkTm {
  Second : Z; Minute : Z; Hour : Z; Wday : Z; Day : Z; Month : Z; Year : Z
}.

(** Modelled from the spec: TimeLib's [breakTime] is missing; the instant is
    read as an unsigned 32-bit count of seconds, as the library does. *)
Definition breakTime (t : Z) : tmElements :=
  let time := t mod 2 ^ 32 in
  let days := time / SECS_PER_DAY in
  let '(y, yday) := yearLoop (Z.to_nat (days / 365) + 1) 1970 days in
  let '(m, mday) := monthLoop 11 y 1 yday in
  {| Second := time mod 60;
     Minute := (time / 60) mod 60;
     Hour := (time / 3600) mod 24;
     Wday := (days + 4) mod 7 + 1;
     Day := mday + 1;
     Month := m;
     Year := y |}.

(** Modelled from the spec: TimeLib's accessors are missing. *)
Definition year (t : Z) : Z := Year (breakTime t).
Definition weekday (t : Z) : Z := Wday (breakTime t).

(** Modelled from the spec: TimeLib is missing; days from 1970-01-01 to the
    first day of year [y]. *)
Definition daysBeforeYear (y : Z) : Z :=
  let leaps (n : Z) := n / 4 - n / 100 + n / 400 in
  365 * (y - 1970) + (leaps (y - 1) - leaps 1969).

(** Modelled from the spec: TimeLib is missing; days from the first day of
    year [y] to the first day of its month [m]. *)
Definition daysBeforeMonth (y m : Z) : Z :=
  fold_right Z.add 0
    (map (fun k => daysInMonth y (Z.of_nat k)) (seq 1 (Z.to_nat m - 1))).

(** Modelled from the spec: TimeLib's [makeTime] is missing; the instant of
    a calendar date and time of day. *)
Definition makeTime (y m d h mi s : Z) : Z :=
  (daysBeforeYear y + daysBeforeMonth y m + (d - 1)) * SECS_PER_DAY
  + h * SECS_PER_HOUR + mi * SECS_PER_MIN + s.

(* ================================================================= *)
(** ** Time-zone rules (Timezone) *)

(** Modelled from the spec: the Timezone library's declarations are
    missing; the ordinal of a rule, and the numbering of weekdays and months
    from 1 that the rules of the sketch use. *)
Inductive week_t := Last | First | Second_ | Third | Fourth.

Definition week_num (w : week_t) : Z :=
  match w with
  | Last => 0 | First => 1 | Second_ => 2 | Third => 3 | Fourth => 4
  end.

Definition Sun : Z := 1.
Definition Apr : Z := 4.
Definition Sep : Z := 9.

(** Modelled from the spec: the library's rule type is missing; a label,
    an ordinal, a weekday, a month, an hour of the day and an offset from UTC
    in minutes, in the order of the sketch's initialisers. *)
Record TimeChangeRule := mkRule {
  abbrev : string;
  week : week_t;
  dow : Z;
  month : Z;
  hour : Z;
  offset : Z
}.

(** Modelled from the spec: the library's time-zone type is missing; one
    daylight rule and one standard rule, in the order the sketch passes
    them. *)
Record Timezone := mkTimezone {
  m_dst : TimeChangeRule;
  m_std : TimeChangeRule
}.

(** The rules the sketch declares. *)
Definition nzDST : TimeChangeRule := mkRule "NZDT" Last Sun Sep 2 780.
Definition nzSTD : TimeChangeRule := mkRule "NZST" First Sun Apr 3 720.
Definition nzTime : Timezone := mkTimezone nzDST nzSTD.

(** Modelled from the spec: the Timezone library is included by the sketch
    but is not among the sources.  The instant, in the rule's own local
    time, at which rule [r] takes effect in year [yr]: the n-th (or last)
    [dow] of [month] at [hour] o'clock.  A last-week rule is the first such
    weekday of the following month, one week earlier. *)
Definition toTime_t (r : TimeChangeRule) (yr : Z) : Z :=
  let '(m, y, w) :=
    match week r with
    | Last => if 12 <? month r + 1 then (1, yr + 1, 1) else (month r + 1, yr, 1)
    | _ => (month r, yr, week_num (week r))
    end in
  let t := makeTime y m 1 (hour r) 0 0 in
  let t := t + ((dow r - weekday t + 7) mod 7 + (w - 1) * 7) * SECS_PER_DAY in
  match week r with
  | Last => t - 7 * SECS_PER_DAY
  | _ => t
  end.

(** Modelled from the spec: the Timezone library is missing; the four
    change points of a year, in local rule time and in UTC. *)
Record changes := mkChanges {
  m_dstLoc : Z; m_stdLoc : Z; m_dstUTC : Z; m_stdUTC : Z
}.

(** Modelled from the spec: the Timezone library is missing.  A transition
    is expressed in the time in effect just before it, so its UTC instant is
    the rule-local instant minus the other rule's offset. *)
Definition calcTimeChanges (tz : Timezone) (yr : Z) : changes :=
  let dstLoc := toTime_t (m_dst tz) yr in
  let stdLoc := toTime_t (m_std tz) yr in
  {| m_dstLoc := dstLoc;
     m_stdLoc := stdLoc;
     m_dstUTC := dstLoc - offset (m_std tz) * SECS_PER_MIN;
     m_stdUTC := stdLoc - offset (m_dst tz) * SECS_PER_MIN |}.

(** Modelled from the spec: the Timezone library is missing.  Whether the
    UTC instant [utc] lies in the daylight interval of its year: from the
    daylight change point (included) to the standard one (excluded), or the
    complement of the standard interval where daylight time spans the new
    year. *)
Definition utcIsDST (tz : Timezone) (utc : Z) : bool :=
  let c := calcTimeChanges tz (year utc) in
  if m_stdUTC c =? m_dstUTC c then false
  else if m_dstUTC c <? m_stdUTC c
       then (m_dstUTC c <=? utc) && (utc <? m_stdUTC c)
       else negb ((m_stdUTC c <=? utc) && (utc <? m_dstUTC c)).

(** Modelled from the spec: the Timezone library is missing, and the
    specification has no operation on local instants; this is the library's
    companion of [utcIsDST] that takes a *local* instant and compares it
    with the change points in local rule time. *)
Definition locIsDST (tz : Timezone) (local : Z) : bool :=
  let c := calcTimeChanges tz (year local) in
  if m_stdUTC c =? m_dstUTC c then false
  else if m_dstLoc c <? m_stdLoc c
       then (m_dstLoc c <=? local) && (local <? m_stdLoc c)
       else negb ((m_stdLoc c <=? local) && (local <? m_dstLoc c)).

(** Modelled from the spec: the Timezone library is missing.
    [localInstant = utc + (isDst ? dst.offset : std.offset) * 60]. *)
Definition toLocal (tz : Timezone) (utc : Z) : Z :=
  if utcIsDST tz utc
  then utc + offset (m_dst tz) * SECS_PER_MIN
  else utc + offset (m_std tz) * SECS_PER_MIN.

(* ================================================================= *)
(** ** [printSyncInfo] and [displayDateTime] *)

(** The values [printSyncInfo] writes to the serial port. *)
Record syncInfo := mkSyncInfo {
  si_utc : Z;
  si_local : Z;
  si_isDST : bool;
  si_offset : Z;
  si_abbrev : string
}.

(** [utc] is what [timeClient.getEpochTime()] returns. *)
Definition printSyncInfo (utc : Z) : syncInfo :=
  let local := toLocal nzTime utc in
  let isDST := locIsDST nzTime utc in
  let tcr := if isDST then nzDST else nzSTD in
  {| si_utc := utc;
     si_local := local;
     si_isDST := isDST;
     si_offset := offset tcr;
     si_abbrev := abbrev tcr |}.

Definition localFields (local : Z) : fields :=
  let tm := breakTime local in
  {| f_w := Wday tm - 1;
     f_m := Month tm - 1;
     f_d := Day tm;
     f_h := Hour tm;
     f_min := Minute tm;
     f_s := Second tm |}.

Definition displayDateTime (utc : Z) : option (cstring * cstring) :=
  displayFields (localFields (toLocal nzTime utc)).

(* ================================================================= *)
(** ** The synchronisation schedule of [loop] *)

Definition ntpUpdateInterval : Z := 600000.

(** Subtraction of [unsigned long] values. *)
Definition usub (a b : Z) : Z := (a - b) mod 2 ^ 32.

(** [millis() - lastSync > ntpUpdateInterval] *)
Definition syncDue (now lastSync : Z) : bool :=
  ntpUpdateInterval <? usub now lastSync.

Inductive serialLine :=
| SyncLine (info : syncInfo)
| InitialFailedLine
| FailedLine.

(** The sketch's own mutable state: the global [lastSync], what it has
    written to the serial port, and the two rows on the display. *)
Record sketch := mkSketch {
  lastSync : Z;
  serial : list serialLine;
  lcd : option (cstring * cstring)
}.

(** What one pass of [loop] obtains from its environment: the reading of
    [millis()] in the test, the outcome of [timeClient.forceUpdate()], the
    reading of [millis()] stored after a success, and the values of
    [timeClient.getEpochTime()] seen by [printSyncInfo] and by
    [displayDateTime].  The NTP client keeps its own time; what
    [timeClient.update()] does to it shows only in these values. *)
Record pass := mkPass {
  millis_test : Z;
  forceUpdate : bool;
  millis_done : Z;
  epoch_sync : Z;
  epoch_show : Z
}.

(** The state in which [loop] is first entered: [lastSync] is 0; [setup]
    has made one attempt of its own and has logged its outcome. *)
Definition afterSetup (initial_ok : bool) (epoch : Z) : sketch :=
  {| lastSync := 0;
     serial := if initial_ok then [SyncLine (printSyncInfo epoch)]
               else [InitialFailedLine];
     lcd := None |}.

(** The synchronisation part of [loop]. *)
Definition syncStep (p : pass) (st : sketch) : sketch :=
  if syncDue (millis_test p) (lastSync st) then
    if forceUpdate p then
      {| lastSync := millis_done p;
         serial := serial st ++ [SyncLine (printSyncInfo (epoch_sync p))];
         lcd := lcd st |}
    else
      {| lastSync := lastSync st;
         serial := serial st ++ [FailedLine];
         lcd := lcd st |}
  else st.

Definition loop (p : pass) (st : sketch) : sketch :=
  let st' := syncStep p st in
  {| lastSync := lastSync st';
     serial := serial st';
     lcd := displayDateTime (epoch_show p) |}.

(* ================================================================= *)
(** ** Auxiliary notions for the statements *)

(** The integers [lo], [lo + 1], ..., [lo + n - 1]. *)
Definition zrange (lo : Z) (n : nat) : list Z :=
  map (fun k => lo + Z.of_nat k) (seq 0 n).

(** No terminator inside the string. *)
Definition printable (s : cstring) : bool :=
  forallb (fun c => negb (Ascii.eqb c NUL)) s.

(** One and two digit numbers. *)
Definition digits_ok (n : Z) : bool :=
  Nat.eqb (length (fmt_d n)) (if n <? 10 then 1%nat else 2%nat)
  && printable (fmt_d n)
  && (length (fmt_02d n) =? 2)%nat
  && printable (fmt_02d n).

(** Every entry of the two name tables has three printable characters. *)
Definition name_ok (s : cstring) : bool :=
  (length s =? 3)%nat && printable s.

(** A line with [l] blanks before [body] and [r] blanks after it. *)
Definition padded (l : Z) (body : cstring) (r : Z) : list ascii :=
  repeat SP (Z.to_nat l) ++ body ++ repeat SP (Z.to_nat r) ++ [NUL].

(** The time token, one blank and the meridiem, as one string. *)
Definition combined (h min s : Z) : cstring :=
  timeNumStr h min s ++ [SP] ++ statusStr h.

(* ================================================================= *)
(** ** [formatTimeForSerial] and the text of [printSyncInfo] *)

(** ["%s %s %02d %02d:%02d:%02d %d"] into a [char[40]], from the
    broken-down time; [Year] is the calendar year, as [year(t)] gives it. *)
Definition serialFormat (tm : tmElements) : option cstring :=
  wd <- index weekdayShortNames (Wday tm - 1) ;;
  mo <- index monthShortNames (Month tm - 1) ;;
  Some (snprintf 40
          (wd ++ [SP] ++ mo ++ [SP] ++ fmt_02d (Day tm) ++ [SP]
           ++ fmt_02d (Hour tm) ++ lit ":" ++ fmt_02d (Minute tm)
           ++ lit ":" ++ fmt_02d (Second tm) ++ [SP] ++ fmt_d (Year tm))).

Definition formatTimeForSerial (t : Z) : option cstring :=
  serialFormat (breakTime t).

(** The line [printSyncInfo] writes, piece by piece. *)
Definition syncText (utc : Z) : option cstring :=
  let i := printSyncInfo utc in
  u <- formatTimeForSerial (si_utc i) ;;
  l <- formatTimeForSerial (si_local i) ;;
  Some (lit "Sync: UTC=" ++ u ++ lit ", Local=" ++ l
        ++ lit ", DST=" ++ lit (if si_isDST i then "Yes" else "No")
        ++ lit ", Offset=" ++ fmt_d (si_offset i)
        ++ lit " min, TZ=" ++ lit (si_abbrev i)).

(* ================================================================= *)
(** ** The Wi-Fi connection loop of [setup] *)

Definition wifiMaxRetries : Z := 10.

Inductive setupLine :=
| AttemptFailed (n : Z)
| WifiFailedStop
| WifiConnected.

(** [while (WiFi.begin(ssid, pass) != WL_CONNECTED
           && retries++ < wifiMaxRetries) { ... }].
    [begin k] tells whether the call number [k] (from 0) of [WiFi.begin]
    returns [WL_CONNECTED]; [call] counts the calls made so far.  The
    increment of [retries] takes place whenever the right operand is
    evaluated, also when the comparison fails.  The result is the number of
    calls made, the final [retries] and the lines written; [None] when the
    fuel runs out. *)
Fixpoint connectLoop (fuel : nat) (begin : nat -> bool) (call : nat)
    (retries : Z) (log : list setupLine)
  : option (nat * Z * list setupLine) :=
  match fuel with
  | O => None
  | S k =>
      if begin call then Some (S call, retries, log)
      else if retries <? wifiMaxRetries
           then connectLoop k begin (S call) (retries + 1)
                  (log ++ [AttemptFailed (retries + 1)])
           else Some (S call, retries + 1, log)
  end.

(** How [setup] ends: it never returns when Wi-Fi is not connected,
    otherwise [loop] starts. *)
Inductive setupResult :=
| Halted (log : list setupLine) (shown : cstring)
| Started (log : list setupLine) (st : sketch).

(** [status] tells whether [WiFi.status()] is [WL_CONNECTED] after the
    loop; [initial_ok] and [epoch] are the outcome of the first
    [timeClient.forceUpdate()] and the client's time. *)
Definition setup (fuel : nat) (begin : nat -> bool) (status : bool)
    (initial_ok : bool) (epoch : Z) : option setupResult :=
  r <- connectLoop fuel begin 0 0 [] ;;
  let '(_, _, log) := r in
  if status
  then Some (Started (log ++ [WifiConnected]) (afterSetup initial_ok epoch))
  else Some (Halted (log ++ [WifiFailedStop]) (lit "Wi-Fi Failed")).

(** The failure lines numbered 1 to [n]. *)
Definition attempts (n : nat) : list setupLine :=
  map (fun k => AttemptFailed (Z.of_nat k)) (seq 1 n).

(* ================================================================= *)
(** ** Repeated passes of [loop] *)

Definition runLoop (ps : list pass) (st : sketch) : sketch :=
  fold_left (fun s p => loop p s) ps st.

(** The fields as TimeLib delivers them. *)
Definition valid_tm (tm : tmElements) : Prop :=
  0 <= Second tm <= 59 /\ 0 <= Minute tm <= 59 /\ 0 <= Hour tm <= 23 /\
  1 <= Wday tm <= 7 /\ 1 <= Day tm <= 31 /\ 1 <= Month tm <= 12.

(** Numbers of four digits. *)
Definition year_ok (n : Z) : bool := (length (fmt_d n) =? 4)%nat.

(** The change points of a year come in the order: standard time begins
    (UTC, then local reading), daylight time begins (UTC, then local
    reading), the local readings being 13 and 12 hours after the UTC
    ones. *)
Definition changes_order (c : changes) : bool :=
  (m_stdUTC c <? m_stdLoc c) && (m_stdLoc c <=? m_dstUTC c)
  && (m_dstUTC c <? m_dstLoc c)
  && (m_stdLoc c =? m_stdUTC c + 780 * 60)
  && (m_dstLoc c =? m_dstUTC c + 720 * 60).

Definition nz_order (y : Z) : bool :=
  changes_order (calcTimeChanges nzTime y).

(** The two interval tests on given change points. *)
Definition utcTest (c : changes) (utc : Z) : bool :=
  if m_stdUTC c =? m_dstUTC c then false
  else if m_dstUTC c <? m_stdUTC c
       then (m_dstUTC c <=? utc) && (utc <? m_stdUTC c)
       else negb ((m_stdUTC c <=? utc) && (utc <? m_dstUTC c)).

Definition locTest (c : changes) (local : Z) : bool :=
  if m_stdUTC c =? m_dstUTC c then false
  else if m_dstLoc c <? m_stdLoc c
       then (m_dstLoc c <=? local) && (local <? m_stdLoc c)
       else negb ((m_stdLoc c <=? local) && (local <? m_dstLoc c)).

(* ================================================================= *)
(** * Properties *)

(** ** Finite ranges of integers *)

Lemma zrange_In (lo : Z) (n : nat) (x : Z) :
  lo <= x < lo + Z.of_nat n -> In x (zrange lo n).
Proof.
  intros H. unfold zrange. apply in_map_iff.
  exists (Z.to_nat (x - lo)). split; [lia|].
  apply in_seq. lia.
Qed.

Lemma forallb_zrange (P : Z -> bool) (lo : Z) (n : nat) :
  forallb P (zrange lo n) = true ->
  forall x, lo <= x < lo + Z.of_nat n -> P x = true.
Proof.
  intros H x Hx. rewrite forallb_forall in H.
  apply H, zrange_In, Hx.
Qed.

(** ** Characters of the tokens *)

Lemma printable_app (a b : cstring) :
  printable (a ++ b) = printable a && printable b.
Proof. apply forallb_app. Qed.

Lemma c_str_printable (s : cstring) :
  printable s = true -> c_str (s ++ [NUL]) = Some s.
Proof.
  induction s as [|c s IH]; simpl; intros H; [reflexivity|].
  apply andb_true_iff in H as [Hc Hs].
  destruct (Ascii.eqb c NUL); [discriminate|].
  rewrite (IH Hs). reflexivity.
Qed.

Lemma printable_repeat_SP (n : nat) : printable (repeat SP n) = true.
Proof. induction n; simpl; auto. Qed.

Lemma digits_ok_below_100 (n : Z) : 0 <= n < 100 -> digits_ok n = true.
Proof.
  apply (forallb_zrange digits_ok 0 100). vm_compute. reflexivity.
Qed.

Lemma fmt_d_length (n : Z) :
  0 <= n < 100 -> strlen (fmt_d n) = if n <? 10 then 1 else 2.
Proof.
  intros H. pose proof (digits_ok_below_100 n H) as E. unfold digits_ok in E.
  repeat (apply andb_true_iff in E as [E ?]).
  apply Nat.eqb_eq in E. unfold strlen. rewrite E.
  destruct (n <? 10); reflexivity.
Qed.

Lemma fmt_02d_length (n : Z) : 0 <= n < 100 -> strlen (fmt_02d n) = 2.
Proof.
  intros H. pose proof (digits_ok_below_100 n H) as E. unfold digits_ok in E.
  repeat (apply andb_true_iff in E as [E ?]).
  unfold strlen.
  match goal with L : (_ =? 2)%nat = true |- _ => apply Nat.eqb_eq in L; rewrite L end.
  reflexivity.
Qed.

Lemma fmt_printable (n : Z) :
  0 <= n < 100 -> printable (fmt_d n) = true /\ printable (fmt_02d n) = true.
Proof.
  intros H. pose proof (digits_ok_below_100 n H) as E. unfold digits_ok in E.
  repeat (apply andb_true_iff in E as [E ?]). auto.
Qed.

Lemma getDaySuffix_cases (d : Z) :
  getDaySuffix d = lit "st" \/ getDaySuffix d = lit "nd" \/
  getDaySuffix d = lit "rd" \/ getDaySuffix d = lit "th".
Proof.
  unfold getDaySuffix. destruct ((11 <=? d) && (d <=? 13)); [auto|].
  destruct (Z.rem d 10) as [|p|p]; auto.
  destruct p as [[p|p|]|[p|p|]|]; auto.
Qed.

Lemma getDaySuffix_shape (d : Z) :
  strlen (getDaySuffix d) = 2 /\ printable (getDaySuffix d) = true.
Proof.
  destruct (getDaySuffix_cases d) as [E|[E|[E|E]]]; rewrite E; split; reflexivity.
Qed.

(** X11: outside the calendar: C's remainder of a negative day is never 1, 2
    or 3. *)
Lemma getDaySuffix_negative (d : Z) : d < 0 -> getDaySuffix d = lit "th".
Proof.
  intros H. unfold getDaySuffix.
  replace ((11 <=? d) && (d <=? 13)) with false
    by (symmetry; apply andb_false_iff; left; apply Z.leb_gt; lia).
  pose proof (Z.rem_nonpos d 10 ltac:(lia) ltac:(lia)) as Hr.
  destruct (Z.rem d 10) as [|p|p]; try reflexivity. lia.
Qed.

Lemma index_weekday (w : Z) :
  0 <= w <= 6 ->
  exists wd, index weekdayShortNames w = Some wd.
Proof.
  intros H. unfold index.
  replace (w <? 0) with false by (symmetry; apply Z.ltb_ge; lia).
  destruct (nth_error weekdayShortNames (Z.to_nat w)) eqn:E; [eauto|].
  apply nth_error_None in E. simpl in E. lia.
Qed.

Lemma index_month (m : Z) :
  0 <= m <= 11 ->
  exists mo, index monthShortNames m = Some mo.
Proof.
  intros H. unfold index.
  replace (m <? 0) with false by (symmetry; apply Z.ltb_ge; lia).
  destruct (nth_error monthShortNames (Z.to_nat m)) eqn:E; [eauto|].
  apply nth_error_None in E. simpl in E. lia.
Qed.

Lemma index_name_ok (tbl : list cstring) (i : Z) (s : cstring) :
  forallb name_ok tbl = true ->
  index tbl i = Some s -> strlen s = 3 /\ printable s = true.
Proof.
  intros Htbl H. unfold index in H.
  destruct (i <? 0); [discriminate|].
  apply nth_error_In in H. rewrite forallb_forall in Htbl.
  specialize (Htbl s H). unfold name_ok in Htbl.
  apply andb_true_iff in Htbl as [L P]. apply Nat.eqb_eq in L.
  unfold strlen. rewrite L. auto.
Qed.

Lemma weekday_name_ok (w : Z) (s : cstring) :
  index weekdayShortNames w = Some s -> strlen s = 3 /\ printable s = true.
Proof. apply index_name_ok. reflexivity. Qed.

Lemma month_name_ok (m : Z) (s : cstring) :
  index monthShortNames m = Some s -> strlen s = 3 /\ printable s = true.
Proof. apply index_name_ok. reflexivity. Qed.

Lemma strlen_app (a b : cstring) : strlen (a ++ b) = strlen a + strlen b.
Proof. unfold strlen. rewrite length_app. lia. Qed.

Lemma strlen_cons (c : ascii) (s : cstring) : strlen (c :: s) = 1 + strlen s.
Proof. unfold strlen. simpl length. lia. Qed.

Lemma snprintf_fits (size : nat) (s : cstring) :
  strlen s < Z.of_nat size -> snprintf size s = s.
Proof.
  unfold snprintf, strlen. intros H. apply firstn_all2. lia.
Qed.

Lemma snprintf_length (size : nat) (s : cstring) :
  (0 < size)%nat -> strlen (snprintf size s) < Z.of_nat size.
Proof.
  unfold snprintf, strlen. intros H.
  pose proof (firstn_le_length (size - 1) s). lia.
Qed.

(** ** Placing tokens in a blank line *)

Lemma centre_token (token : cstring) :
  strlen token <= 16 ->
  memcpy blankLine (pad token) token (strlen token)
  = Some (padded ((16 - strlen token) / 2) token
                 (16 - strlen token - (16 - strlen token) / 2)).
Proof.
  intros H.
  do 17 (destruct token as [|? token]; [reflexivity|]).
  unfold strlen in H. simpl length in H. lia.
Qed.

Lemma place_time_status (token status : cstring) :
  strlen token <= 11 -> strlen status = 2 ->
  placeTime token status
  = Some (padded ((13 - strlen token) / 2) (token ++ [SP] ++ status)
                 (13 - strlen token - (13 - strlen token) / 2)).
Proof.
  intros H Hs.
  destruct status as [|a [|b [|? ?]]]; try discriminate Hs;
    [|unfold strlen in Hs; simpl length in Hs; lia].
  do 12 (destruct token as [|? token]; [reflexivity|]).
  unfold strlen in H. simpl length in H. lia.
Qed.

Lemma padded_shown (l : Z) (body : cstring) (r : Z) :
  printable body = true ->
  c_str (padded l body r)
  = Some (repeat SP (Z.to_nat l) ++ body ++ repeat SP (Z.to_nat r)).
Proof.
  intros H. unfold padded.
  replace (repeat SP (Z.to_nat l) ++ body ++ repeat SP (Z.to_nat r) ++ [NUL])
    with ((repeat SP (Z.to_nat l) ++ body ++ repeat SP (Z.to_nat r)) ++ [NUL])
    by (rewrite <- !app_assoc; reflexivity).
  apply c_str_printable.
  rewrite !printable_app, !printable_repeat_SP, H. reflexivity.
Qed.

(** ** The date line *)

Lemma date_token_shape (w m d : Z) (wd mo : cstring) :
  index weekdayShortNames w = Some wd ->
  index monthShortNames m = Some mo ->
  1 <= d <= 31 ->
  let token := wd ++ [SP] ++ fmt_d d ++ getDaySuffix d ++ [SP] ++ mo in
  strlen token = (if d <? 10 then 11 else 12) /\ printable token = true.
Proof.
  intros Hw Hm Hd token. subst token.
  destruct (weekday_name_ok _ _ Hw) as [Lw Pw].
  destruct (month_name_ok _ _ Hm) as [Lm Pm].
  destruct (getDaySuffix_shape d) as [Ls Ps].
  destruct (fmt_printable d ltac:(lia)) as [Pd _].
  pose proof (fmt_d_length d ltac:(lia)) as Ld.
  split.
  - rewrite !strlen_app, Lw, Lm, Ls, Ld.
    change (strlen [SP]) with 1. destruct (d <? 10); reflexivity.
  - rewrite !printable_app, Pw, Pm, Ps, Pd. reflexivity.
Qed.

Lemma dateStr_token (w m d : Z) (wd mo : cstring) :
  index weekdayShortNames w = Some wd ->
  index monthShortNames m = Some mo ->
  1 <= d <= 31 ->
  dateStr w m d = Some (wd ++ [SP] ++ fmt_d d ++ getDaySuffix d ++ [SP] ++ mo).
Proof.
  intros Hw Hm Hd.
  destruct (date_token_shape w m d wd mo Hw Hm Hd) as [L _].
  unfold dateStr. rewrite Hw, Hm. unfold bind.
  rewrite snprintf_fits; [reflexivity|].
  rewrite L. destruct (d <? 10); reflexivity.
Qed.

Lemma dateLine_padded (w m d : Z) (wd mo : cstring) :
  index weekdayShortNames w = Some wd ->
  index monthShortNames m = Some mo ->
  1 <= d <= 31 ->
  let token := wd ++ [SP] ++ fmt_d d ++ getDaySuffix d ++ [SP] ++ mo in
  let left := (16 - strlen token) / 2 in
  (strlen token = 11 \/ strlen token = 12) /\
  pad token = left /\
  dateLine w m d = Some (padded left token (16 - strlen token - left)).
Proof.
  intros Hw Hm Hd token left.
  destruct (date_token_shape w m d wd mo Hw Hm Hd) as [L _].
  fold token in L.
  assert (Hlen : strlen token = 11 \/ strlen token = 12)
    by (rewrite L; destruct (d <? 10); auto).
  split; [exact Hlen|]. split.
  - unfold pad, left. destruct Hlen as [E|E]; rewrite E; reflexivity.
  - unfold dateLine. rewrite (dateStr_token w m d wd mo Hw Hm Hd).
    unfold bind. fold token. apply centre_token. lia.
Qed.

(** C7: the date line holds the token ["<Weekday> <Day><Suffix> <Month>"]
    with [floor((16 - tokenLength) / 2)] blanks on its left and the rest of
    the sixteen cells blank on its right, so an odd remainder goes to the
    right; Monday 15 July gives ["  Mon 15th Jul  "] (even leftover) and
    Monday 5 July gives ["  Mon 5th Jul   "] (odd leftover). *)
Theorem dateLine_centred (w m d : Z) (wd mo : cstring) :
  index weekdayShortNames w = Some wd ->
  index monthShortNames m = Some mo ->
  1 <= d <= 31 ->
  let token := wd ++ [SP] ++ fmt_d d ++ getDaySuffix d ++ [SP] ++ mo in
  let left := (16 - strlen token) / 2 in
  let right := 16 - strlen token - left in
  dateStr w m d = Some token /\
  pad token = left /\
  dateLine w m d = Some (padded left token right) /\
  0 <= left <= right /\ right - left = (16 - strlen token) mod 2 /\
  bind (dateLine 1 6 15) c_str = Some (lit "  Mon 15th Jul  ") /\
  bind (dateLine 1 6 5) c_str = Some (lit "  Mon 5th Jul   ").
Proof.
  intros Hw Hm Hd token left right.
  destruct (dateLine_padded w m d wd mo Hw Hm Hd) as (Hlen & Epad & Eline).
  fold token in Hlen, Epad, Eline. fold left in Epad, Eline.
  split; [apply dateStr_token; assumption|].
  split; [exact Epad|]. split; [exact Eline|].
  split; [|split; [|split; reflexivity]].
  - unfold right, left. destruct Hlen as [E|E]; rewrite E; cbv; intuition discriminate.
  - unfold right, left. destruct Hlen as [E|E]; rewrite E; reflexivity.
Qed.

Lemma dateLine_centred_witness :
  index weekdayShortNames 1 = Some (lit "Mon") /\
  index monthShortNames 6 = Some (lit "Jul") /\
  1 <= 15 <= 31 /\
  dateLine 1 6 15
  = Some (padded 2 (lit "Mon" ++ [SP] ++ fmt_d 15 ++ getDaySuffix 15
                    ++ [SP] ++ lit "Jul") 2).
Proof.
  split; [reflexivity|]. split; [reflexivity|]. split; [lia|].
  apply (dateLine_centred 1 6 15 (lit "Mon") (lit "Jul"));
    [reflexivity | reflexivity | lia].
Defined.

(** ** The time line *)

Lemma hour12_range (h : Z) : 0 <= h <= 23 -> 1 <= hour12 h <= 12.
Proof.
  intros H. unfold hour12. rewrite Z.rem_mod_nonneg by lia.
  pose proof (Z.mod_pos_bound h 12 ltac:(lia)).
  destruct (h mod 12 =? 0) eqn:E; [lia|].
  apply Z.eqb_neq in E. lia.
Qed.

Lemma time_token_shape (h min s : Z) :
  0 <= h <= 23 -> 0 <= min <= 59 -> 0 <= s <= 59 ->
  let token :=
    fmt_d (hour12 h) ++ lit ":" ++ fmt_02d min ++ lit ":" ++ fmt_02d s in
  timeNumStr h min s = token /\
  strlen token = (if hour12 h <? 10 then 7 else 8) /\
  printable token = true.
Proof.
  intros Hh Hm Hs token. subst token.
  pose proof (hour12_range h Hh) as R.
  pose proof (fmt_d_length (hour12 h) ltac:(lia)) as Lh.
  pose proof (fmt_02d_length min ltac:(lia)) as Lm.
  pose proof (fmt_02d_length s ltac:(lia)) as Ls.
  destruct (fmt_printable (hour12 h) ltac:(lia)) as [Ph _].
  destruct (fmt_printable min ltac:(lia)) as [_ Pm].
  destruct (fmt_printable s ltac:(lia)) as [_ Ps].
  assert (L : strlen (fmt_d (hour12 h) ++ lit ":" ++ fmt_02d min
                      ++ lit ":" ++ fmt_02d s)
              = if hour12 h <? 10 then 7 else 8).
  { rewrite !strlen_app, Lh, Lm, Ls. change (strlen (lit ":")) with 1.
    destruct (hour12 h <? 10); reflexivity. }
  split; [|split].
  - unfold timeNumStr. apply snprintf_fits. rewrite L.
    destruct (hour12 h <? 10); reflexivity.
  - exact L.
  - rewrite !printable_app, Ph, Pm, Ps. reflexivity.
Qed.

Lemma statusStr_shape (h : Z) :
  strlen (statusStr h) = 2 /\ printable (statusStr h) = true.
Proof. unfold statusStr. destruct (12 <=? h); split; reflexivity. Qed.

(** C9: the displayed hour is [hour mod 12] with 0 shown as 12, the
    meridiem is "AM" exactly below 12 and "PM" from 12 on; 00:05:09 gives
    "12:05:09" "AM" and 13:00:00 gives "1:00:00" "PM". *)
Theorem hour12_and_meridiem (h min s : Z) :
  0 <= h <= 23 -> 0 <= min <= 59 -> 0 <= s <= 59 ->
  hour12 h = (if h mod 12 =? 0 then 12 else h mod 12) /\
  timeNumStr h min s
  = fmt_d (hour12 h) ++ lit ":" ++ fmt_02d min ++ lit ":" ++ fmt_02d s /\
  (statusStr h = lit "AM" <-> h < 12) /\
  (statusStr h = lit "PM" <-> 12 <= h) /\
  hour12 0 = 12 /\ hour12 13 = 1 /\
  timeNumStr 0 5 9 = lit "12:05:09" /\ statusStr 0 = lit "AM" /\
  timeNumStr 13 0 0 = lit "1:00:00" /\ statusStr 13 = lit "PM".
Proof.
  intros Hh Hm Hs.
  split.
  { unfold hour12. rewrite Z.rem_mod_nonneg by lia. reflexivity. }
  split.
  { apply (time_token_shape h min s Hh Hm Hs). }
  split.
  { unfold statusStr. destruct (12 <=? h) eqn:E.
    - apply Z.leb_le in E. split; [discriminate | lia].
    - apply Z.leb_gt in E. split; [intros _; exact E | reflexivity]. }
  split.
  { unfold statusStr. destruct (12 <=? h) eqn:E.
    - apply Z.leb_le in E. split; [intros _; exact E | reflexivity].
    - apply Z.leb_gt in E. split; [discriminate | lia]. }
  repeat split; reflexivity.
Qed.

Lemma hour12_and_meridiem_witness :
  0 <= 23 <= 23 /\ 0 <= 59 <= 59 /\ 0 <= 58 <= 59 /\
  hour12 23 = (if 23 mod 12 =? 0 then 12 else 23 mod 12).
Proof.
  split; [lia|]. split; [lia|]. split; [lia|].
  apply (hour12_and_meridiem 23 59 58); lia.
Defined.

Lemma timeLine_padded (h min s : Z) :
  0 <= h <= 23 -> 0 <= min <= 59 -> 0 <= s <= 59 ->
  let token := timeNumStr h min s in
  let start := (16 - strlen token - 3) / 2 in
  (strlen token = 7 \/ strlen token = 8) /\
  timeStart token = start /\
  statusPos token = start + strlen token + 1 /\
  timeLine h min s
  = Some (padded start (token ++ [SP] ++ statusStr h)
                 (16 - start - strlen token - 3)).
Proof.
  intros Hh Hm Hs token start.
  destruct (time_token_shape h min s Hh Hm Hs) as [Et [L _]].
  rewrite <- Et in L. fold token in L.
  destruct (statusStr_shape h) as [Ls _].
  assert (Hlen : strlen token = 7 \/ strlen token = 8)
    by (rewrite L; destruct (hour12 h <? 10); auto).
  split; [exact Hlen|]. split; [|split].
  - unfold timeStart, start. destruct Hlen as [E|E]; rewrite E; reflexivity.
  - unfold statusPos, timeStart, start.
    destruct Hlen as [E|E]; rewrite E; reflexivity.
  - unfold timeLine. fold token.
    rewrite (place_time_status token (statusStr h)) by lia.
    unfold start. destruct Hlen as [E|E]; rewrite E; reflexivity.
Qed.

(** C8, as the code has it: the time token starts at cell
    [floor((16 - timeTokenLength - 3) / 2)], one blank cell follows, then
    the two-letter meridiem; the line so obtained is the line that centring
    the combined string ["H:MM:SS <meridiem>"] by the date line's rule
    gives. *)
Theorem timeLine_layout (h min s : Z) :
  0 <= h <= 23 -> 0 <= min <= 59 -> 0 <= s <= 59 ->
  let token := timeNumStr h min s in
  let start := (16 - strlen token - 3) / 2 in
  timeStart token = start /\
  statusPos token = start + strlen token + 1 /\
  strlen (statusStr h) = 2 /\
  timeLine h min s
  = Some (padded start (token ++ [SP] ++ statusStr h)
                 (16 - start - strlen token - 3)) /\
  timeLine h min s
  = memcpy blankLine (pad (combined h min s)) (combined h min s)
           (strlen (combined h min s)).
Proof.
  intros Hh Hm Hs token start.
  destruct (timeLine_padded h min s Hh Hm Hs) as (Hlen & Est & Epos & Hline).
  fold token in Hlen, Est, Epos, Hline. fold start in Est, Epos, Hline.
  destruct (statusStr_shape h) as [Ls _].
  split; [exact Est|]. split; [exact Epos|]. split; [exact Ls|].
  split; [exact Hline|].
  rewrite Hline. unfold combined. fold token.
  assert (Lc : strlen (token ++ [SP] ++ statusStr h) = strlen token + 3).
  { rewrite !strlen_app, Ls. change (strlen [SP]) with 1. lia. }
  rewrite centre_token by lia. rewrite Lc. unfold start.
  destruct Hlen as [E|E]; rewrite E; reflexivity.
Qed.

Lemma timeLine_layout_witness :
  0 <= 0 <= 23 /\ 0 <= 5 <= 59 /\ 0 <= 9 <= 59 /\
  timeStart (timeNumStr 0 5 9) = (16 - strlen (timeNumStr 0 5 9) - 3) / 2.
Proof.
  split; [lia|]. split; [lia|]. split; [lia|].
  apply (timeLine_layout 0 5 9); lia.
Defined.

(** C8, as it is stated ("not symmetric centering of the combined string"),
    fails at 13:00:00: the line is the combined string ["1:00:00 PM"] with
    three blanks on either side, which is what centring that string in
    sixteen cells gives. *)
Lemma timeLine_1pm_is_centred :
  timeLine 13 0 0 = Some (padded 3 (lit "1:00:00 PM") 3) /\
  timeLine 13 0 0
  = memcpy blankLine (pad (lit "1:00:00 PM")) (lit "1:00:00 PM")
           (strlen (lit "1:00:00 PM")) /\
  bind (timeLine 13 0 0) c_str = Some (lit "   1:00:00 PM   ").
Proof. repeat split; reflexivity. Qed.

(** ** Both lines stay within sixteen cells *)

(** C10: for valid calendar fields the date token has at most 12 and the
    time token at most 8 characters; every [memcpy] starts at a
    non-negative offset and ends within the sixteen cells; both rows shown
    are exactly sixteen characters: the tokens between blanks. *)
Theorem display_lines_fit (f : fields) :
  valid_fields f ->
  exists date_tok l0 r0 l1 r1,
    let time_tok := timeNumStr (f_h f) (f_min f) (f_s f) in
    let status := statusStr (f_h f) in
    dateStr (f_w f) (f_m f) (f_d f) = Some date_tok /\
    strlen date_tok <= 12 /\ strlen time_tok <= 8 /\
    0 <= pad date_tok /\ pad date_tok + strlen date_tok <= 16 /\
    0 <= timeStart time_tok /\ timeStart time_tok + strlen time_tok <= 16 /\
    statusPos time_tok + strlen status <= 16 /\
    displayFields f
    = Some (repeat SP l0 ++ date_tok ++ repeat SP r0,
            repeat SP l1 ++ (time_tok ++ [SP] ++ status) ++ repeat SP r1) /\
    length (repeat SP l0 ++ date_tok ++ repeat SP r0) = 16%nat /\
    length (repeat SP l1 ++ (time_tok ++ [SP] ++ status) ++ repeat SP r1)
    = 16%nat.
Proof.
  intros (Hw & Hm & Hd & Hh & Hmin & Hs).
  destruct (index_weekday _ Hw) as [wd Ewd].
  destruct (index_month _ Hm) as [mo Emo].
  pose proof (dateStr_token _ _ _ wd mo Ewd Emo Hd) as Etok.
  pose proof (dateLine_padded _ _ _ wd mo Ewd Emo Hd) as D.
  cbv zeta in D. destruct D as (Hdl & Epad & Eline).
  destruct (date_token_shape _ _ _ wd mo Ewd Emo Hd) as [_ Pd].
  cbv zeta in Pd.
  set (date_tok := wd ++ [SP] ++ fmt_d (f_d f) ++ getDaySuffix (f_d f)
                   ++ [SP] ++ mo) in *.
  pose proof (timeLine_padded _ _ _ Hh Hmin Hs) as T.
  cbv zeta in T. destruct T as (Htl & Estart & Epos & Etime).
  destruct (time_token_shape _ _ _ Hh Hmin Hs) as [Ett [_ Pt]].
  cbv zeta in Pt. rewrite <- Ett in Pt.
  destruct (statusStr_shape (f_h f)) as [Lst Pst].
  set (time_tok := timeNumStr (f_h f) (f_min f) (f_s f)) in *.
  exists date_tok,
    (Z.to_nat ((16 - strlen date_tok) / 2)),
    (Z.to_nat (16 - strlen date_tok - (16 - strlen date_tok) / 2)),
    (Z.to_nat ((16 - strlen time_tok - 3) / 2)),
    (Z.to_nat (16 - (16 - strlen time_tok - 3) / 2 - strlen time_tok - 3)).
  cbv zeta.
  split; [exact Etok|].
  split; [lia|]. split; [lia|].
  split; [rewrite Epad; destruct Hdl as [E|E]; rewrite E; cbv; discriminate|].
  split; [rewrite Epad; destruct Hdl as [E|E]; rewrite E; cbv; discriminate|].
  split; [rewrite Estart; destruct Htl as [E|E]; rewrite E; cbv; discriminate|].
  split; [rewrite Estart; destruct Htl as [E|E]; rewrite E; cbv; discriminate|].
  split; [rewrite Epos, Lst; destruct Htl as [E|E]; rewrite E; cbv; discriminate|].
  split.
  { unfold displayFields. rewrite Eline, Etime. unfold bind.
    rewrite padded_shown by exact Pd.
    rewrite padded_shown
      by (rewrite !printable_app, Pt, Pst; reflexivity).
    reflexivity. }
  split.
  - rewrite !length_app, !repeat_length. unfold strlen in *.
    destruct Hdl as [E|E]; rewrite E;
      [replace (length date_tok) with 11%nat by lia
      |replace (length date_tok) with 12%nat by lia]; reflexivity.
  - rewrite !length_app, !repeat_length. unfold strlen in *.
    assert (length (statusStr (f_h f)) = 2%nat) by lia.
    simpl length.
    destruct Htl as [E|E]; rewrite E;
      [replace (length time_tok) with 7%nat by lia
      |replace (length time_tok) with 8%nat by lia];
      replace (length (statusStr (f_h f))) with 2%nat; reflexivity.
Qed.

Lemma display_lines_fit_witness :
  valid_fields (mkFields 1 6 15 0 5 9) /\
  exists shown,
    displayFields (mkFields 1 6 15 0 5 9) = Some shown /\
    length (fst shown) = 16%nat /\ length (snd shown) = 16%nat.
Proof.
  assert (V : valid_fields (mkFields 1 6 15 0 5 9))
    by (unfold valid_fields; simpl; lia).
  split; [exact V|].
  destruct (display_lines_fit _ V)
    as (tok & l0 & r0 & l1 & r1 & _ & _ & _ & _ & _ & _ & _ & _ & E & L0 & L1).
  eexists. split; [exact E|]. split; [exact L0 | exact L1].
Defined.

(** ** The ordinal suffix *)

(** C6: for every day value (a non-negative [int]) the suffix is "th" for
    11 to 13 and otherwise "st", "nd", "rd" or "th" as [day mod 10] is 1, 2,
    3 or anything else; 1, 2, 3, 4, 11, 12, 13, 21, 22, 23 give st, nd, rd,
    th, th, th, th, st, nd, rd. *)
Theorem getDaySuffix_rule (d : Z) :
  0 <= d ->
  getDaySuffix d = lit (suffix_rule d) /\
  (11 <= d <= 13 -> getDaySuffix d = lit "th") /\
  map getDaySuffix [1; 2; 3; 4; 11; 12; 13; 21; 22; 23]
  = map lit ["st"; "nd"; "rd"; "th"; "th"; "th"; "th"; "st"; "nd"; "rd"]%string.
Proof.
  intros Hd.
  assert (E : getDaySuffix d = lit (suffix_rule d)).
  { unfold getDaySuffix, suffix_rule.
    destruct ((11 <=? d) && (d <=? 13)); [reflexivity|].
    rewrite Z.rem_mod_nonneg by lia.
    pose proof (Z.mod_pos_bound d 10 ltac:(lia)) as B.
    remember (d mod 10) as r eqn:Er. clear Er.
    assert (C : r = 0 \/ r = 1 \/ r = 2 \/ r = 3 \/ r = 4 \/ r = 5 \/
                r = 6 \/ r = 7 \/ r = 8 \/ r = 9) by lia.
    repeat (destruct C as [C|C]; [subst r; reflexivity|]).
    subst r; reflexivity. }
  split; [exact E|]. split; [|reflexivity].
  intros [H11 H13]. unfold getDaySuffix.
  replace (11 <=? d) with true by (symmetry; apply Z.leb_le; exact H11).
  replace (d <=? 13) with true by (symmetry; apply Z.leb_le; exact H13).
  reflexivity.
Qed.

Lemma getDaySuffix_rule_witness :
  0 <= 22 /\ getDaySuffix 22 = lit (suffix_rule 22).
Proof.
  split; [lia|]. apply (getDaySuffix_rule 22). lia.
Defined.

(* ================================================================= *)
(** ** The synchronisation schedule *)

Lemma usub_no_wrap (t T : Z) : 0 <= T <= t -> t < 2 ^ 32 -> usub t T = t - T.
Proof. intros H1 H2. unfold usub. apply Z.mod_small. lia. Qed.

(** The counter may have wrapped between the two readings: the test sees
    the ticks elapsed, as long as fewer than [2^32] have. *)
Lemma usub_elapsed (T e : Z) :
  0 <= e < 2 ^ 32 -> usub ((T + e) mod 2 ^ 32) T = e.
Proof.
  intros H. unfold usub.
  rewrite Zminus_mod_idemp_l.
  replace (T + e - T) with e by lia. apply Z.mod_small. exact H.
Qed.

(** X1: the test sees the ticks elapsed since the stored reading, also
    across a roll-over of [millis()]: after [e < 2^32] ticks it is true
    exactly when [e] exceeds the interval. *)
Lemma syncDue_elapsed (T e : Z) :
  0 <= e < 2 ^ 32 ->
  syncDue ((T + e) mod 2 ^ 32) T = true <-> ntpUpdateInterval < e.
Proof.
  intros H. unfold syncDue. rewrite usub_elapsed by exact H.
  apply Z.ltb_lt.
Qed.

(** C3: a successful forced update stores the reading [T] of [millis()] in
    [lastSync]; from then on the test is false at every reading [t] with
    [t - T <= 600000] and true exactly when [t - T > 600000]. *)
Theorem syncDue_after_success (p : pass) (st : sketch) (t : Z) :
  syncDue (millis_test p) (lastSync st) = true ->
  forceUpdate p = true ->
  0 <= millis_done p <= t -> t < 2 ^ 32 ->
  let T := lastSync (syncStep p st) in
  T = millis_done p /\
  ntpUpdateInterval = 600000 /\
  (t - T <= ntpUpdateInterval -> syncDue t T = false) /\
  (syncDue t T = true <-> t - T > ntpUpdateInterval).
Proof.
  intros Hdue Hok Ht Hmax T.
  assert (ET : T = millis_done p).
  { unfold T, syncStep. rewrite Hdue, Hok. reflexivity. }
  split; [exact ET|]. split; [reflexivity|].
  rewrite ET. unfold syncDue. rewrite usub_no_wrap by lia.
  split.
  - intros Hle. apply Z.ltb_ge. exact Hle.
  - rewrite Z.ltb_lt. lia.
Qed.

Lemma syncDue_after_success_witness :
  syncDue 600001 (lastSync (afterSetup true 0)) = true /\
  forceUpdate (mkPass 600001 true 600050 0 0) = true /\
  0 <= 600050 <= 1200050 /\ 1200050 < 2 ^ 32 /\
  syncDue 1200050
    (lastSync (syncStep (mkPass 600001 true 600050 0 0) (afterSetup true 0)))
  = false.
Proof.
  split; [reflexivity|]. split; [reflexivity|]. split; [lia|]. split; [lia|].
  apply (syncDue_after_success (mkPass 600001 true 600050 0 0)
           (afterSetup true 0) 1200050);
    [reflexivity | reflexivity | simpl; lia | lia | ].
  unfold ntpUpdateInterval; simpl; lia.
Defined.

(** C4: a failed forced update leaves [lastSync] as it was and only appends
    the failure line to the serial output; the pass still refreshes the
    display from the client's running time, and the test is true again at
    every later reading of [millis()]. *)
Theorem failed_sync_retries (p : pass) (st : sketch) (t' : Z) :
  syncDue (millis_test p) (lastSync st) = true ->
  forceUpdate p = false ->
  0 <= lastSync st <= millis_test p ->
  millis_test p <= t' < 2 ^ 32 ->
  lastSync (syncStep p st) = lastSync st /\
  lcd (syncStep p st) = lcd st /\
  serial (syncStep p st) = serial st ++ [FailedLine] /\
  lcd (loop p st) = displayDateTime (epoch_show p) /\
  syncDue t' (lastSync (loop p st)) = true.
Proof.
  intros Hdue Hfail HT Ht.
  assert (E : syncStep p st
              = mkSketch (lastSync st) (serial st ++ [FailedLine]) (lcd st)).
  { unfold syncStep. rewrite Hdue, Hfail. reflexivity. }
  unfold loop. rewrite E. simpl. repeat split.
  unfold syncDue in *. apply Z.ltb_lt. apply Z.ltb_lt in Hdue.
  rewrite usub_no_wrap in * by lia. lia.
Qed.

Lemma failed_sync_retries_witness :
  syncDue 600001 (lastSync (afterSetup false 0)) = true /\
  forceUpdate (mkPass 600001 false 0 0 0) = false /\
  0 <= lastSync (afterSetup false 0) <= 600001 /\
  600001 <= 601001 < 2 ^ 32 /\
  syncDue 601001
    (lastSync (loop (mkPass 600001 false 0 0 0) (afterSetup false 0)))
  = true.
Proof.
  split; [reflexivity|]. split; [reflexivity|].
  split; [simpl; lia|]. split; [lia|].
  apply (failed_sync_retries (mkPass 600001 false 0 0 0)
           (afterSetup false 0) 601001);
    [reflexivity | reflexivity | simpl; lia | simpl; lia].
Defined.

(** C5, as the code has it: [loop] is entered with [lastSync = 0], whatever
    the attempt made by [setup] gave, so the test is true exactly at the
    readings above 600000 and false from 0 to 600000. *)
Theorem syncDue_at_start (initial_ok : bool) (epoch t : Z) :
  0 <= t < 2 ^ 32 ->
  lastSync (afterSetup initial_ok epoch) = 0 /\
  (syncDue t (lastSync (afterSetup initial_ok epoch)) = true
   <-> ntpUpdateInterval < t).
Proof.
  intros Ht. split; [reflexivity|].
  simpl. unfold syncDue. rewrite usub_no_wrap by lia.
  rewrite Z.sub_0_r. apply Z.ltb_lt.
Qed.

Lemma syncDue_at_start_witness :
  0 <= 600001 < 2 ^ 32 /\
  (syncDue 600001 (lastSync (afterSetup false 0)) = true
   <-> ntpUpdateInterval < 600001).
Proof.
  split; [lia|]. apply (syncDue_at_start false 0 600001). lia.
Defined.

(** C5, as it is stated, fails one second after start-up: no
    synchronisation has succeeded, yet the test is false and the pass leaves
    the state as it was. *)
Lemma syncDue_false_at_start :
  syncDue 1000 (lastSync (afterSetup false 0)) = false /\
  syncStep (mkPass 1000 true 1000 0 0) (afterSetup false 0)
  = afterSetup false 0.
Proof. split; reflexivity. Qed.

(* ================================================================= *)
(** ** The time-zone conversion *)

Lemma toLocal_offset_tz (tz : Timezone) (utc : Z) :
  toLocal tz utc - utc
  = (if utcIsDST tz utc then offset (m_dst tz) else offset (m_std tz)) * 60.
Proof.
  unfold toLocal, SECS_PER_MIN. destruct (utcIsDST tz utc); lia.
Qed.

(** C1: for every UTC instant the local instant minus the UTC instant is
    [780 * 60] when the conversion finds daylight time in effect and
    [720 * 60] otherwise, and so never any other value. *)
Theorem toLocal_offset (utc : Z) :
  toLocal nzTime utc - utc
  = (if utcIsDST nzTime utc then 780 * 60 else 720 * 60) /\
  (toLocal nzTime utc - utc = 780 * 60 \/
   toLocal nzTime utc - utc = 720 * 60).
Proof.
  rewrite toLocal_offset_tz. change (offset (m_dst nzTime)) with 780.
  change (offset (m_std nzTime)) with 720.
  destruct (utcIsDST nzTime utc); split; auto.
Qed.

(** The conversion itself changes rule at 2025-09-27T14:00:00Z, which is
    02:00 standard time on Sunday 28 September 2025; that instant already
    has the daylight offset. *)
Lemma toLocal_dst_start_2025 :
  makeTime 2025 9 28 1 59 59 - offset nzSTD * SECS_PER_MIN = 1758981599 /\
  m_dstUTC (calcTimeChanges nzTime 2025) = 1758981600 /\
  utcIsDST nzTime 1758981599 = false /\
  utcIsDST nzTime 1758981600 = true /\
  toLocal nzTime 1758981599 = makeTime 2025 9 28 1 59 59 /\
  toLocal nzTime 1758981600 = makeTime 2025 9 28 3 0 0.
Proof. vm_compute. repeat split; reflexivity. Qed.

(** C2 on the code: [printSyncInfo] asks [locIsDST], which takes a local
    instant, about the UTC instant.  At 2025-09-27T14:00:00Z, one second
    after 01:59:59 standard time, the local time it prints is already
    daylight time (UTC+13) while the flag, the offset and the label it
    prints are those of standard time; they change twelve hours later. *)
Theorem printSyncInfo_at_dst_start :
  si_isDST (printSyncInfo 1758981599) = false /\
  si_local (printSyncInfo 1758981600) - 1758981600 = 780 * 60 /\
  si_isDST (printSyncInfo 1758981600) = false /\
  si_offset (printSyncInfo 1758981600) = 720 /\
  si_abbrev (printSyncInfo 1758981600) = "NZST"%string /\
  si_isDST (printSyncInfo (1758981600 + 43199)) = false /\
  si_isDST (printSyncInfo (1758981600 + 43200)) = true.
Proof. vm_compute. repeat split; reflexivity. Qed.

(** The whole path from the client's time to the two rows: midnight UTC on
    15 July 2025 is noon, standard time, on a Tuesday. *)
Example displayDateTime_2025_07_15 :
  displayDateTime 1752537600
  = Some (lit "  Tue 15th Jul  ", lit "  12:00:00 PM   ").
Proof. vm_compute. reflexivity. Qed.

(* ================================================================= *)
(** * Further properties of the sketch *)

(** ** The schedule over many passes *)

Lemma syncDue_elapsed_witness :
  0 <= 600001 < 2 ^ 32 /\
  (syncDue ((4294967000 + 600001) mod 2 ^ 32) 4294967000 = true
   <-> ntpUpdateInterval < 600001).
Proof.
  split; [lia|]. apply (syncDue_elapsed 4294967000 600001). lia.
Defined.

Lemma runLoop_cons (p : pass) (ps : list pass) (st : sketch) :
  runLoop (p :: ps) st = runLoop ps (loop p st).
Proof. reflexivity. Qed.


Lemma loop_failed (p : pass) (st : sketch) :
  syncDue (millis_test p) (lastSync st) = true ->
  forceUpdate p = false ->
  lastSync (loop p st) = lastSync st /\
  serial (loop p st) = serial st ++ [FailedLine].
Proof.
  intros H F. unfold loop, syncStep. rewrite H, F. split; reflexivity.
Qed.



(** X3: while every forced update fails and the readings of [millis()] stay
    beyond the interval (and below [2^32]), every pass tries again: each
    writes one failure line and [lastSync] does not move. *)
Theorem runLoop_all_failed (ps : list pass) (st : sketch) :
  0 <= lastSync st ->
  Forall (fun p => forceUpdate p = false /\
                   lastSync st + ntpUpdateInterval < millis_test p < 2 ^ 32)
         ps ->
  lastSync (runLoop ps st) = lastSync st /\
  serial (runLoop ps st) = serial st ++ repeat FailedLine (length ps).
Proof.
  intros H0 Hall. revert st H0 Hall.
  induction ps as [|p ps IH]; intros st H0 Hall.
  { simpl. rewrite app_nil_r. split; reflexivity. }
  inversion Hall as [|? ? [Hf Hp] Hps]; subst. cbv beta in Hp.
  assert (Hd : syncDue (millis_test p) (lastSync st) = true).
  { unfold syncDue. apply Z.ltb_lt.
    rewrite usub_no_wrap; unfold ntpUpdateInterval in *; lia. }
  destruct (loop_failed p st Hd Hf) as [EL ES].
  rewrite runLoop_cons.
  destruct (IH (loop p st)) as [IL IS].
  - rewrite EL. exact H0.
  - rewrite EL. exact Hps.
  - split; [congruence|].
    rewrite IS, ES, <- app_assoc. reflexivity.
Qed.

Lemma runLoop_all_failed_witness :
  0 <= lastSync (afterSetup false 0) /\
  Forall (fun p => forceUpdate p = false /\
                   lastSync (afterSetup false 0) + ntpUpdateInterval
                   < millis_test p < 2 ^ 32)
    [mkPass 600001 false 0 0 0; mkPass 601001 false 0 0 0] /\
  serial (runLoop [mkPass 600001 false 0 0 0; mkPass 601001 false 0 0 0]
            (afterSetup false 0))
  = [InitialFailedLine; FailedLine; FailedLine].
Proof.
  assert (H0 : 0 <= lastSync (afterSetup false 0)) by (simpl; lia).
  assert (HF : Forall (fun p => forceUpdate p = false /\
                                lastSync (afterSetup false 0)
                                + ntpUpdateInterval
                                < millis_test p < 2 ^ 32)
                 [mkPass 600001 false 0 0 0; mkPass 601001 false 0 0 0]).
  { repeat constructor; unfold ntpUpdateInterval; simpl; lia. }
  split; [exact H0|]. split; [exact HF|].
  apply (runLoop_all_failed _ _ H0 HF).
Defined.

Lemma loop_lastSync (p : pass) (st : sketch) :
  lastSync (loop p st) = lastSync st \/
  (forceUpdate p = true /\ lastSync (loop p st) = millis_done p).
Proof.
  unfold loop, syncStep.
  destruct (syncDue (millis_test p) (lastSync st)); [|left; reflexivity].
  destruct (forceUpdate p) eqn:F; [right; split; reflexivity | left; reflexivity].
Qed.

(** X4: whatever the passes, [lastSync] afterwards is the value it had or the
    reading of [millis()] taken after a forced update that succeeded in one
    of them: a failure never sets it. *)
Theorem runLoop_lastSync (ps : list pass) (st : sketch) :
  lastSync (runLoop ps st) = lastSync st \/
  exists p, In p ps /\ forceUpdate p = true /\
            lastSync (runLoop ps st) = millis_done p.
Proof.
  revert st. induction ps as [|p ps IH]; intros st; [left; reflexivity|].
  rewrite runLoop_cons.
  destruct (IH (loop p st)) as [E|(q & Hq & Fq & Eq)].
  - destruct (loop_lastSync p st) as [E'|[F E']].
    + left. congruence.
    + right. exists p. split; [left; reflexivity|]. split; [exact F|congruence].
  - right. exists q. split; [right; exact Hq|]. split; assumption.
Qed.

Lemma loop_serial (p : pass) (st : sketch) :
  exists added, serial (loop p st) = serial st ++ added /\
                (length added <= 1)%nat /\ ~ In InitialFailedLine added.
Proof.
  unfold loop, syncStep.
  destruct (syncDue (millis_test p) (lastSync st)).
  - destruct (forceUpdate p); eexists; (split; [reflexivity|]);
      (split; [simpl; lia|]); simpl; intros [H|[]]; discriminate H.
  - exists []. rewrite app_nil_r. split; [reflexivity|].
    split; [simpl; lia | intros []].
Qed.

(** X5: the passes only add to the serial output, at most one line each, and
    never the line that reports the failure of the attempt in [setup]. *)
Theorem runLoop_serial (ps : list pass) (st : sketch) :
  exists added,
    serial (runLoop ps st) = serial st ++ added /\
    (length added <= length ps)%nat /\ ~ In InitialFailedLine added.
Proof.
  revert st. induction ps as [|p ps IH]; intros st.
  { exists []. rewrite app_nil_r. split; [reflexivity|].
    split; [simpl; lia | intros []]. }
  rewrite runLoop_cons.
  destruct (loop_serial p st) as (a1 & E1 & L1 & N1).
  destruct (IH (loop p st)) as (a2 & E2 & L2 & N2).
  exists (a1 ++ a2). split; [|split].
  - rewrite E2, E1, app_assoc. reflexivity.
  - rewrite length_app. simpl. lia.
  - intros H. apply in_app_or in H as [H|H]; [exact (N1 H) | exact (N2 H)].
Qed.

(** ** The Wi-Fi connection loop *)

Lemma attempts_S (n : nat) :
  attempts (S n) = attempts n ++ [AttemptFailed (Z.of_nat n + 1)].
Proof.
  unfold attempts. rewrite seq_S, map_app. simpl.
  repeat f_equal. lia.
Qed.

Lemma connectLoop_from (fuel : nat) (begin : nat -> bool) (call : nat) :
  (call <= 10)%nat -> (11 <= fuel + call)%nat ->
  exists n,
    (call < n <= 11)%nat /\
    connectLoop fuel begin call (Z.of_nat call) (attempts call)
    = Some (n, (if begin (n - 1)%nat then Z.of_nat n - 1 else 11),
            attempts (n - 1)) /\
    (forall k, (call <= k < n - 1)%nat -> begin k = false) /\
    (begin (n - 1)%nat = true \/ n = 11%nat).
Proof.
  revert call. induction fuel as [|fuel IH]; intros call Hc Hf; [lia|].
  simpl. destruct (begin call) eqn:B.
  - exists (S call). replace (S call - 1)%nat with call by lia.
    rewrite B. split; [lia|]. split; [repeat f_equal; lia|].
    split; [intros k Hk; lia | left; reflexivity].
  - destruct (Z.ltb_spec (Z.of_nat call) wifiMaxRetries) as [Hlt|Hge].
    + unfold wifiMaxRetries in Hlt.
      destruct (IH (S call) ltac:(lia) ltac:(lia)) as (n & Hn & E & Hfalse & Hlast).
      exists n. split; [lia|]. split.
      * rewrite <- E. rewrite attempts_S.
        replace (Z.of_nat (S call)) with (Z.of_nat call + 1) by lia.
        reflexivity.
      * split; [|exact Hlast].
        intros k Hk. destruct (Nat.eq_dec k call) as [->|Hne]; [exact B|].
        apply Hfalse. lia.
    + unfold wifiMaxRetries in Hge.
      assert (call = 10%nat) by lia. subst call.
      exists 11%nat. simpl. rewrite B.
      split; [lia|]. split; [reflexivity|].
      split; [|right; reflexivity].
      intros k Hk. lia.
Qed.

(** X6: the connection loop of [setup] ends after at most 11 calls of
    [WiFi.begin] (one attempt and [wifiMaxRetries] retries): it stops at the
    first call that returns connected; the failures before the last call
    are reported, numbered from 1, so an eleventh failure is not reported
    and leaves [retries] at 11. *)
Theorem connectLoop_bounded (fuel : nat) (begin : nat -> bool) :
  (11 <= fuel)%nat ->
  exists n,
    (1 <= n <= 11)%nat /\
    connectLoop fuel begin 0 0 []
    = Some (n, (if begin (n - 1)%nat then Z.of_nat n - 1 else 11),
            attempts (n - 1)) /\
    (forall k, (k < n - 1)%nat -> begin k = false) /\
    (begin (n - 1)%nat = true \/ n = 11%nat).
Proof.
  intros Hf.
  destruct (connectLoop_from fuel begin 0 ltac:(lia) ltac:(lia))
    as (n & Hn & E & Hfalse & Hlast).
  exists n. split; [lia|]. split; [exact E|]. split; [|exact Hlast].
  intros k Hk. apply Hfalse. lia.
Qed.

Lemma connectLoop_bounded_witness :
  (11 <= 11)%nat /\
  exists n,
    (1 <= n <= 11)%nat /\
    connectLoop 11 (fun k => Nat.eqb k 3) 0 0 []
    = Some (n, (if Nat.eqb (n - 1) 3 then Z.of_nat n - 1 else 11),
            attempts (n - 1)).
Proof.
  split; [lia|].
  destruct (connectLoop_bounded 11 (fun k => Nat.eqb k 3) ltac:(lia))
    as (n & Hn & E & _).
  exists n. split; [exact Hn | exact E].
Defined.

(** ** The display lines for arbitrary field values *)

Lemma padded_cells (l : Z) (body : cstring) (r : Z) :
  0 <= l -> 0 <= r -> l + strlen body + r = 16 ->
  exists cells, padded l body r = cells ++ [NUL] /\ length cells = 16%nat.
Proof.
  intros Hl Hr Hsum.
  exists (repeat SP (Z.to_nat l) ++ body ++ repeat SP (Z.to_nat r)).
  split.
  - unfold padded. rewrite <- !app_assoc. reflexivity.
  - rewrite !length_app, !repeat_length. unfold strlen in Hsum. lia.
Qed.

(** X8: whatever the hour, minute and second (any [int] values), the two
    [memcpy] calls of the time line stay inside the array and leave its
    terminator in place: [snprintf] keeps the time token to at most 11
    characters, so it starts at cell 1 or later and the blank and the
    meridiem after it end within the sixteen cells. *)
Theorem timeLine_any_time (h min s : Z) :
  exists l r cells,
    timeLine h min s
    = Some (padded l (timeNumStr h min s ++ [SP] ++ statusStr h) r) /\
    1 <= l /\ 0 <= r /\ l + strlen (timeNumStr h min s) + 3 + r = 16 /\
    strlen (timeNumStr h min s) <= 11 /\
    timeLine h min s = Some (cells ++ [NUL]) /\ length cells = 16%nat.
Proof.
  set (token := timeNumStr h min s).
  assert (Hlen : strlen token < 12)
    by (apply (snprintf_length 12); lia).
  assert (Hnn : 0 <= strlen token) by (unfold strlen; lia).
  destruct (statusStr_shape h) as [Ls _].
  pose proof (place_time_status token (statusStr h) ltac:(lia) Ls) as E.
  set (l := (13 - strlen token) / 2) in *.
  set (r := 13 - strlen token - l) in *.
  assert (Hl : 1 <= l /\ l <= 13 - strlen token).
  { unfold l. split.
    - apply Z.div_le_lower_bound; lia.
    - apply Z.div_le_upper_bound; lia. }
  assert (Hb : strlen (token ++ [SP] ++ statusStr h) = strlen token + 3).
  { rewrite !strlen_app, Ls. change (strlen [SP]) with 1. lia. }
  destruct (padded_cells l (token ++ [SP] ++ statusStr h) r)
    as (cells & Ec & Lc); [lia | unfold r; lia | rewrite Hb; unfold r; lia |].
  exists l, r, cells. unfold timeLine. fold token. rewrite E.
  split; [reflexivity|]. split; [lia|]. split; [unfold r; lia|].
  split; [unfold r; lia|]. split; [lia|].
  split; [rewrite Ec; reflexivity | exact Lc].
Qed.

(** X9: for a weekday and a month inside the two name tables and any day (any
    [int] value), the [memcpy] of the date line stays inside the array:
    [snprintf] keeps the token to at most 16 characters and the blanks left
    over are split with the odd one on the right. *)
Theorem dateLine_any_day (w m d : Z) :
  0 <= w <= 6 -> 0 <= m <= 11 ->
  exists token l r cells,
    dateStr w m d = Some token /\ strlen token <= 16 /\
    dateLine w m d = Some (padded l token r) /\
    0 <= l <= r /\ r <= l + 1 /\ l + strlen token + r = 16 /\
    dateLine w m d = Some (cells ++ [NUL]) /\ length cells = 16%nat.
Proof.
  intros Hw Hm.
  destruct (index_weekday w Hw) as [wd Ewd].
  destruct (index_month m Hm) as [mo Emo].
  set (token := snprintf 17 (wd ++ [SP] ++ fmt_d d ++ getDaySuffix d
                             ++ [SP] ++ mo)).
  assert (Hlen : strlen token < 17)
    by (apply (snprintf_length 17); lia).
  assert (Hnn : 0 <= strlen token) by (unfold strlen; lia).
  assert (Etok : dateStr w m d = Some token).
  { unfold dateStr. rewrite Ewd, Emo. reflexivity. }
  pose proof (centre_token token ltac:(lia)) as E.
  set (l := (16 - strlen token) / 2) in *.
  set (r := 16 - strlen token - l) in *.
  assert (Hl : 0 <= l /\ 2 * l <= 16 - strlen token
               /\ 16 - strlen token <= 2 * l + 1).
  { unfold l. pose proof (Z.div_mod (16 - strlen token) 2 ltac:(lia)).
    pose proof (Z.mod_pos_bound (16 - strlen token) 2 ltac:(lia)).
    split; [apply Z.div_pos; lia | lia]. }
  destruct (padded_cells l token r) as (cells & Ec & Lc);
    [lia | unfold r; lia | unfold r; lia |].
  assert (Eline : dateLine w m d = Some (padded l token r)).
  { unfold dateLine. rewrite Etok. exact E. }
  exists token, l, r, cells.
  split; [exact Etok|]. split; [lia|]. split; [exact Eline|].
  split; [unfold r; lia|]. split; [unfold r; lia|].
  split; [unfold r; lia|].
  split; [rewrite Eline, Ec; reflexivity | exact Lc].
Qed.

Lemma dateLine_any_day_witness :
  0 <= 1 <= 6 /\ 0 <= 6 <= 11 /\
  exists token, dateStr 1 6 123456 = Some token /\ strlen token <= 16.
Proof.
  split; [lia|]. split; [lia|].
  destruct (dateLine_any_day 1 6 123456 ltac:(lia) ltac:(lia))
    as (token & l & r & cells & E & L & _).
  exists token. split; [exact E | exact L].
Defined.

(** ** The suffix over the days of a month *)

(** X10: among the days 1 to 31 the suffix is "st" exactly for 1, 21 and 31,
    "nd" exactly for 2 and 22, "rd" exactly for 3 and 23, and "th" for all
    the others. *)
Theorem getDaySuffix_days (d : Z) :
  1 <= d <= 31 ->
  (getDaySuffix d = lit "st" <-> d = 1 \/ d = 21 \/ d = 31) /\
  (getDaySuffix d = lit "nd" <-> d = 2 \/ d = 22) /\
  (getDaySuffix d = lit "rd" <-> d = 3 \/ d = 23) /\
  (getDaySuffix d = lit "th" <->
   4 <= d <= 20 \/ 24 <= d <= 30).
Proof.
  intros H.
  assert (C : In d (zrange 1 31)) by (apply zrange_In; lia).
  simpl in C.
  repeat (destruct C as [C|C];
          [subst d; repeat split; intros E;
           first [reflexivity | lia | (vm_compute in E; discriminate E)]|]).
  destruct C.
Qed.

Lemma getDaySuffix_days_witness :
  1 <= 21 <= 31 /\
  (getDaySuffix 21 = lit "st" <-> 21 = 1 \/ 21 = 21 \/ 21 = 31).
Proof.
  split; [lia|]. apply (getDaySuffix_days 21). lia.
Defined.

Lemma getDaySuffix_negative_witness :
  -9 < 0 /\ getDaySuffix (-9) = lit "th".
Proof.
  split; [lia|]. apply (getDaySuffix_negative (-9)). lia.
Defined.

(** ** The 12-hour clock loses nothing *)

(** X12: two hours of the day that show the same 12-hour value and the same
    meridiem are the same hour. *)
Theorem hour12_statusStr_injective (h1 h2 : Z) :
  0 <= h1 <= 23 -> 0 <= h2 <= 23 ->
  hour12 h1 = hour12 h2 -> statusStr h1 = statusStr h2 -> h1 = h2.
Proof.
  intros H1 H2 E12 Est.
  unfold hour12 in E12. rewrite !Z.rem_mod_nonneg in E12 by lia.
  unfold statusStr in Est.
  pose proof (Z.div_mod h1 12 ltac:(lia)) as D1.
  pose proof (Z.div_mod h2 12 ltac:(lia)) as D2.
  pose proof (Z.mod_pos_bound h1 12 ltac:(lia)) as B1.
  pose proof (Z.mod_pos_bound h2 12 ltac:(lia)) as B2.
  destruct (Z.leb_spec 12 h1) as [L1|L1];
    destruct (Z.leb_spec 12 h2) as [L2|L2];
    try discriminate Est;
    destruct (Z.eqb_spec (h1 mod 12) 0) as [Z1|Z1];
    destruct (Z.eqb_spec (h2 mod 12) 0) as [Z2|Z2]; lia.
Qed.

Lemma hour12_statusStr_injective_witness :
  0 <= 13 <= 23 /\ 0 <= 13 <= 23 /\ hour12 13 = hour12 13 /\
  statusStr 13 = statusStr 13 /\ 13 = 13.
Proof.
  split; [lia|]. split; [lia|]. split; [reflexivity|].
  split; [reflexivity|].
  apply (hour12_statusStr_injective 13 13); [lia | lia | reflexivity | reflexivity].
Defined.

(** ** The calendar fields of an instant *)

Lemma daysInYear_cases (y : Z) : daysInYear y = 365 \/ daysInYear y = 366.
Proof. unfold daysInYear. destruct (isLeap y); auto. Qed.

Lemma yearLoop_spec (fuel : nat) (y days : Z) :
  0 <= days < 365 * Z.of_nat fuel ->
  0 <= snd (yearLoop fuel y days) < daysInYear (fst (yearLoop fuel y days)) /\
  y <= fst (yearLoop fuel y days) /\
  365 * (fst (yearLoop fuel y days) - y) <= days.
Proof.
  revert y days. induction fuel as [|fuel IH]; intros y days H; [lia|].
  cbn [yearLoop]. pose proof (daysInYear_cases y) as C.
  destruct (Z.leb_spec (daysInYear y) days) as [L|L].
  - destruct (IH (y + 1) (days - daysInYear y) ltac:(lia)) as (A & B & D).
    split; [exact A|]. split; lia.
  - cbn [fst snd]. split; [lia|]. split; lia.
Qed.

Lemma monthLoop_spec (y days : Z) :
  0 <= days < daysInYear y ->
  1 <= fst (monthLoop 11 y 1 days) <= 12 /\
  0 <= snd (monthLoop 11 y 1 days) < 31.
Proof.
  intros H. unfold daysInYear in H. cbn [monthLoop].
  cbn [Z.add Pos.add Pos.succ Pos.add_carry daysInMonth].
  destruct (isLeap y);
    repeat match goal with
           | |- context [?a <=? ?b] => destruct (Z.leb_spec a b)
           end; cbn [fst snd]; lia.
Qed.

Lemma breakTime_valid (t : Z) :
  valid_tm (breakTime t) /\ 1970 <= Year (breakTime t) <= 2106.
Proof.
  unfold breakTime, valid_tm.
  set (time := t mod 2 ^ 32).
  assert (Ht : 0 <= time < 2 ^ 32) by (apply Z.mod_pos_bound; lia).
  set (days := time / SECS_PER_DAY).
  assert (Hd : 0 <= days <= 49710).
  { unfold days, SECS_PER_DAY. split.
    - apply Z.div_pos; lia.
    - assert (time / 86400 < 49711)
        by (apply Z.div_lt_upper_bound; lia). lia. }
  assert (Hq : 0 <= days / 365 <= 136).
  { split; [apply Z.div_pos; lia|].
    assert (days / 365 < 137) by (apply Z.div_lt_upper_bound; lia). lia. }
  assert (Hfuel : 0 <= days < 365 * Z.of_nat (Z.to_nat (days / 365) + 1)).
  { pose proof (Z.div_mod days 365 ltac:(lia)).
    pose proof (Z.mod_pos_bound days 365 ltac:(lia)). lia. }
  pose proof (yearLoop_spec _ 1970 days Hfuel) as Y.
  destruct (yearLoop (Z.to_nat (days / 365) + 1) 1970 days) as [y yday].
  cbn [fst snd] in Y. destruct Y as (Y1 & Y2 & Y3).
  pose proof (monthLoop_spec y yday Y1) as M.
  destruct (monthLoop 11 y 1 yday) as [m mday].
  cbn [fst snd] in M. destruct M as (M1 & M2).
  cbn [Second Minute Hour Wday Day Month Year].
  pose proof (Z.mod_pos_bound time 60 ltac:(lia)).
  pose proof (Z.mod_pos_bound (time / 60) 60 ltac:(lia)).
  pose proof (Z.mod_pos_bound (time / 3600) 24 ltac:(lia)).
  pose proof (Z.mod_pos_bound (days + 4) 7 ltac:(lia)).
  repeat split; lia.
Qed.

Lemma fmt_d_year (n : Z) : 1000 <= n <= 9999 -> strlen (fmt_d n) = 4.
Proof.
  intros H.
  assert (E : year_ok n = true).
  { apply (forallb_zrange year_ok 1000 (Z.to_nat 9000));
      [vm_compute; reflexivity | lia]. }
  unfold year_ok in E. apply Nat.eqb_eq in E. unfold strlen. rewrite E.
  reflexivity.
Qed.

(** ** The serial text of an instant *)

(** X13: for fields as the calendar gives them and a year of four digits, the
    text has exactly 24 characters,
    ["Www Mmm DD HH:MM:SS YYYY"], and the 40-byte buffer cuts nothing
    off. *)
Theorem serialFormat_width (tm : tmElements) :
  valid_tm tm -> 1000 <= Year tm <= 9999 ->
  exists wd mo,
    index weekdayShortNames (Wday tm - 1) = Some wd /\
    index monthShortNames (Month tm - 1) = Some mo /\
    serialFormat tm
    = Some (wd ++ [SP] ++ mo ++ [SP] ++ fmt_02d (Day tm) ++ [SP]
            ++ fmt_02d (Hour tm) ++ lit ":" ++ fmt_02d (Minute tm)
            ++ lit ":" ++ fmt_02d (Second tm) ++ [SP] ++ fmt_d (Year tm)) /\
    (forall s, serialFormat tm = Some s -> strlen s = 24).
Proof.
  intros (Hs & Hmi & Hh & Hw & Hd & Hm) Hy.
  destruct (index_weekday (Wday tm - 1) ltac:(lia)) as [wd Ewd].
  destruct (index_month (Month tm - 1) ltac:(lia)) as [mo Emo].
  destruct (weekday_name_ok _ _ Ewd) as [Lw _].
  destruct (month_name_ok _ _ Emo) as [Lm _].
  pose proof (fmt_02d_length (Day tm) ltac:(lia)) as L1.
  pose proof (fmt_02d_length (Hour tm) ltac:(lia)) as L2.
  pose proof (fmt_02d_length (Minute tm) ltac:(lia)) as L3.
  pose proof (fmt_02d_length (Second tm) ltac:(lia)) as L4.
  pose proof (fmt_d_year (Year tm) Hy) as L5.
  set (text := wd ++ [SP] ++ mo ++ [SP] ++ fmt_02d (Day tm) ++ [SP]
               ++ fmt_02d (Hour tm) ++ lit ":" ++ fmt_02d (Minute tm)
               ++ lit ":" ++ fmt_02d (Second tm) ++ [SP] ++ fmt_d (Year tm)).
  assert (L : strlen text = 24).
  { unfold text. rewrite !strlen_app, Lw, Lm, L1, L2, L3, L4, L5.
    change (strlen [SP]) with 1. change (strlen (lit ":")) with 1.
    reflexivity. }
  assert (E : serialFormat tm = Some text).
  { unfold serialFormat. rewrite Ewd, Emo. unfold bind. fold text.
    rewrite snprintf_fits by (rewrite L; reflexivity). reflexivity. }
  exists wd, mo. split; [exact Ewd|]. split; [exact Emo|].
  split; [exact E|].
  intros s Es. rewrite E in Es. injection Es as <-. exact L.
Qed.

Lemma serialFormat_width_witness :
  valid_tm (mkTm 0 0 14 7 27 9 2025) /\ 1000 <= 2025 <= 9999 /\
  serialFormat (mkTm 0 0 14 7 27 9 2025)
  = Some (lit "Sat Sep 27 14:00:00 2025").
Proof.
  assert (V : valid_tm (mkTm 0 0 14 7 27 9 2025))
    by (unfold valid_tm; simpl; lia).
  split; [exact V|]. split; [lia|].
  destruct (serialFormat_width (mkTm 0 0 14 7 27 9 2025) V ltac:(simpl; lia))
    as (wd & mo & Ewd & Emo & E & _).
  rewrite E.
  injection Ewd as <-. injection Emo as <-. reflexivity.
Defined.

(** X14: for every instant (any integer; the calendar reads it modulo [2^32])
    [formatTimeForSerial] stays inside the name tables and gives a text of
    exactly 24 characters: the year is between 1970 and 2106. *)
Theorem formatTimeForSerial_total (t : Z) :
  exists s, formatTimeForSerial t = Some s /\ strlen s = 24.
Proof.
  destruct (breakTime_valid t) as [V Y].
  destruct V as (Hs & Hmi & Hh & Hw & Hd & Hm).
  unfold formatTimeForSerial. set (tm := breakTime t) in *.
  destruct (index_weekday (Wday tm - 1) ltac:(lia)) as [wd Ewd].
  destruct (index_month (Month tm - 1) ltac:(lia)) as [mo Emo].
  destruct (weekday_name_ok _ _ Ewd) as [Lw _].
  destruct (month_name_ok _ _ Emo) as [Lm _].
  pose proof (fmt_02d_length (Day tm) ltac:(lia)) as L1.
  pose proof (fmt_02d_length (Hour tm) ltac:(lia)) as L2.
  pose proof (fmt_02d_length (Minute tm) ltac:(lia)) as L3.
  pose proof (fmt_02d_length (Second tm) ltac:(lia)) as L4.
  pose proof (fmt_d_year (Year tm) ltac:(lia)) as L5.
  set (text := wd ++ [SP] ++ mo ++ [SP] ++ fmt_02d (Day tm) ++ [SP]
               ++ fmt_02d (Hour tm) ++ lit ":" ++ fmt_02d (Minute tm)
               ++ lit ":" ++ fmt_02d (Second tm) ++ [SP] ++ fmt_d (Year tm)).
  assert (L : strlen text = 24).
  { unfold text. rewrite !strlen_app, Lw, Lm, L1, L2, L3, L4, L5.
    change (strlen [SP]) with 1. change (strlen (lit ":")) with 1.
    reflexivity. }
  exists text. split; [|exact L].
  unfold serialFormat. rewrite Ewd, Emo. unfold bind. fold text.
  rewrite snprintf_fits by (rewrite L; reflexivity). reflexivity.
Qed.

(** ** The display for every instant *)

Lemma displayFields_rows (f : fields) :
  valid_fields f ->
  exists shown0 shown1,
    displayFields f = Some (shown0, shown1) /\
    length shown0 = 16%nat /\ length shown1 = 16%nat.
Proof.
  intros (Hw & Hm & Hd & Hh & Hmin & Hs).
  destruct (index_weekday _ Hw) as [wd Ewd].
  destruct (index_month _ Hm) as [mo Emo].
  pose proof (dateLine_padded _ _ _ wd mo Ewd Emo Hd) as D.
  cbv zeta in D. destruct D as (Hdl & _ & Eline).
  destruct (date_token_shape _ _ _ wd mo Ewd Emo Hd) as [_ Pd].
  cbv zeta in Pd.
  set (date_tok := wd ++ [SP] ++ fmt_d (f_d f) ++ getDaySuffix (f_d f)
                   ++ [SP] ++ mo) in *.
  pose proof (timeLine_padded _ _ _ Hh Hmin Hs) as T.
  cbv zeta in T. destruct T as (Htl & _ & _ & Etime).
  destruct (time_token_shape _ _ _ Hh Hmin Hs) as [Ett [_ Pt]].
  cbv zeta in Pt. rewrite <- Ett in Pt.
  destruct (statusStr_shape (f_h f)) as [Lst Pst].
  set (time_tok := timeNumStr (f_h f) (f_min f) (f_s f)) in *.
  do 2 eexists. split.
  { unfold displayFields. rewrite Eline, Etime. unfold bind.
    rewrite padded_shown by exact Pd.
    rewrite padded_shown
      by (rewrite !printable_app, Pt, Pst; reflexivity).
    reflexivity. }
  rewrite !length_app, !repeat_length. unfold strlen in *.
  assert (length (statusStr (f_h f)) = 2%nat) by lia.
  simpl length.
  split.
  - destruct Hdl as [E|E]; rewrite E;
      [replace (length date_tok) with 11%nat by lia
      |replace (length date_tok) with 12%nat by lia]; reflexivity.
  - destruct Htl as [E|E]; rewrite E;
      [replace (length time_tok) with 7%nat by lia
      |replace (length time_tok) with 8%nat by lia];
      replace (length (statusStr (f_h f))) with 2%nat; reflexivity.
Qed.

(** X15: for every value of the client's time (any integer), [displayDateTime]
    stays inside the name tables and the two line arrays and shows two rows
    of exactly sixteen characters. *)
Theorem displayDateTime_total (utc : Z) :
  exists shown0 shown1,
    displayDateTime utc = Some (shown0, shown1) /\
    length shown0 = 16%nat /\ length shown1 = 16%nat.
Proof.
  unfold displayDateTime. apply displayFields_rows.
  destruct (breakTime_valid (toLocal nzTime utc)) as [V _].
  destruct V as (Hs & Hmi & Hh & Hw & Hd & Hm).
  unfold valid_fields, localFields. cbn [f_w f_m f_d f_h f_min f_s].
  repeat split; lia.
Qed.

(** ** The flag printed by [printSyncInfo] *)

Lemma nz_order_years (y : Z) :
  1970 <= y <= 2106 -> changes_order (calcTimeChanges nzTime y) = true.
Proof.
  intros H. apply (forallb_zrange nz_order 1970 137);
    [vm_compute; reflexivity | lia].
Qed.

Lemma utcIsDST_test (tz : Timezone) (utc : Z) :
  utcIsDST tz utc = utcTest (calcTimeChanges tz (year utc)) utc.
Proof. reflexivity. Qed.

Lemma locIsDST_test (tz : Timezone) (local : Z) :
  locIsDST tz local = locTest (calcTimeChanges tz (year local)) local.
Proof. reflexivity. Qed.

Lemma printSyncInfo_isDST (utc : Z) :
  si_isDST (printSyncInfo utc) = locIsDST nzTime utc.
Proof. reflexivity. Qed.

Lemma flag_windows (c : changes) (utc : Z) :
  changes_order c = true ->
  locTest c utc = utcTest c utc <->
  ~ (m_stdUTC c <= utc < m_stdUTC c + 780 * 60 \/
     m_dstUTC c <= utc < m_dstUTC c + 720 * 60).
Proof.
  intros O. unfold changes_order in O.
  repeat (apply andb_true_iff in O as [O ?]).
  repeat match goal with
         | H : (_ <? _) = true |- _ => apply Z.ltb_lt in H
         | H : (_ <=? _) = true |- _ => apply Z.leb_le in H
         | H : (_ =? _) = true |- _ => apply Z.eqb_eq in H
         end.
  unfold locTest, utcTest.
  destruct (Z.eqb_spec (m_stdUTC c) (m_dstUTC c)) as [E|_]; [lia|].
  destruct (Z.ltb_spec (m_dstLoc c) (m_stdLoc c)) as [L|_]; [lia|].
  destruct (Z.ltb_spec (m_dstUTC c) (m_stdUTC c)) as [L|_]; [lia|].
  destruct (Z.leb_spec (m_stdLoc c) utc);
    destruct (Z.ltb_spec utc (m_dstLoc c));
    destruct (Z.leb_spec (m_stdUTC c) utc);
    destruct (Z.ltb_spec utc (m_dstUTC c));
    cbn [andb negb]; split; intros G; try lia; try reflexivity;
    try discriminate G; try (exfalso; apply G; lia).
Qed.

(** X16: for every instant, the daylight flag that [printSyncInfo] prints agrees
    with the rule [toLocal] applied to the same instant except in two
    windows of its year: the 13 hours from the change to standard time and
    the 12 hours from the change to daylight time (both counted from the
    UTC instant of the change). *)
Theorem printSyncInfo_flag (utc : Z) :
  let c := calcTimeChanges nzTime (year utc) in
  si_isDST (printSyncInfo utc) = utcIsDST nzTime utc <->
  ~ (m_stdUTC c <= utc < m_stdUTC c + 780 * 60 \/
     m_dstUTC c <= utc < m_dstUTC c + 720 * 60).
Proof.
  intros c.
  assert (Hy : 1970 <= year utc <= 2106)
    by (unfold year; apply breakTime_valid).
  rewrite printSyncInfo_isDST, locIsDST_test, utcIsDST_test.
  apply (flag_windows c utc).
  apply nz_order_years. exact Hy.
Qed.

(** ** How [setup] ends *)

(** X7: with fuel for eleven calls, [setup] always ends: after at most 11 calls
    of [WiFi.begin] and a failure line for each failed call but an eleventh,
    it is [WiFi.status()] alone, read after the loop, that decides between
    halting with "Wi-Fi Failed" (no time request is made) and going on to
    the first synchronisation attempt with [lastSync] still 0. *)
Theorem setup_outcome (fuel : nat) (begin : nat -> bool) (status : bool)
    (initial_ok : bool) (epoch : Z) :
  (11 <= fuel)%nat ->
  exists n,
    (1 <= n <= 11)%nat /\
    setup fuel begin status initial_ok epoch
    = Some (if status
            then Started (attempts (n - 1) ++ [WifiConnected])
                         (afterSetup initial_ok epoch)
            else Halted (attempts (n - 1) ++ [WifiFailedStop])
                        (lit "Wi-Fi Failed")).
Proof.
  intros Hf.
  destruct (connectLoop_from fuel begin 0 ltac:(lia) ltac:(lia))
    as (n & Hn & E & _).
  exists n. split; [lia|].
  unfold setup. change (Z.of_nat 0) with 0 in E.
  change (attempts 0) with (@nil setupLine) in E. rewrite E.
  unfold bind. destruct status; reflexivity.
Qed.

Lemma setup_outcome_witness :
  (11 <= 11)%nat /\
  exists n,
    (1 <= n <= 11)%nat /\
    setup 11 (fun _ => false) true false 0
    = Some (Started (attempts (n - 1) ++ [WifiConnected])
                    (afterSetup false 0)).
Proof.
  split; [lia|].
  destruct (setup_outcome 11 (fun _ => false) true false 0 ltac:(lia))
    as (n & Hn & E).
  exists n. split; [exact Hn | exact E].
Defined.

(** The line printed for 2025-09-27T14:00:00Z. *)
Example syncText_at_dst_start :
  syncText 1758981600
  = Some (lit "Sync: UTC=Sat Sep 27 14:00:00 2025, Local=Sun Sep 28 03:00:00 2025, DST=No, Offset=720 min, TZ=NZST").
Proof. vm_compute. reflexivity. Qed.
